(** * NumericDataAnalyzer: a shallow embedding

    Embedding of [xai/data/explorer/numerical/numerical_analyzer.py]:
    the class [NumericDataAnalyzer] with its three methods [feed],
    [feed_all] and [get_statistics].

    Python objects are modelled by value: the instance is a record of its
    two attributes, a method is a function from the instance to an outcome
    (a result or a raised exception) and the instance afterwards. *)

From Stdlib Require Import ZArith List String Bool Lia Permutation.
From Stdlib Require Import Floats.SpecFloat.
Import ListNotations.
Open Scope string_scope.
Open Scope list_scope.

(* ================================================================== *)
(** ** Runtime types and values *)

(** The runtime types a fed value can have.  [ty_class name base] is a
    user-defined class deriving from [base]. *)
Inductive PyType : Type :=
| ty_object
| ty_int
| ty_float
| ty_bool
| ty_str
| ty_NoneType
| ty_list
| ty_class (name : string) (base : PyType).

(** [==] on type objects. *)
Fixpoint PyType_eqb (a b : PyType) : bool :=
  match a, b with
  | ty_object, ty_object => true
  | ty_int, ty_int => true
  | ty_float, ty_float => true
  | ty_bool, ty_bool => true
  | ty_str, ty_str => true
  | ty_NoneType, ty_NoneType => true
  | ty_list, ty_list => true
  | ty_class n1 b1, ty_class n2 b2 => String.eqb n1 n2 && PyType_eqb b1 b2
  | _, _ => false
  end.

(** Method resolution order: [bool] derives from [int], every other
    built-in directly from [object]. *)
Fixpoint mro (t : PyType) : list PyType :=
  match t with
  | ty_object => [ty_object]
  | ty_bool => [ty_bool; ty_int; ty_object]
  | ty_class name base => ty_class name base :: mro base
  | _ => [t; ty_object]
  end.

Definition issubclass (t u : PyType) : bool := existsb (PyType_eqb u) (mro t).

(** [x in l] for a list of types. *)
Definition contains (x : PyType) (l : list PyType) : bool :=
  existsb (PyType_eqb x) l.

(** Values a caller can pass to [feed].  A Python [int] is unbounded, a
    Python [float] is an IEEE 754 binary64. *)
#[warnings="-register-all"]
Inductive PyValue : Type :=
| PyInt (n : Z)
| PyFloat (f : spec_float)
| PyBool (b : bool)
| PyStr (s : string)
| PyNone
| PyList (items : list PyValue)
| PyInstance (cls : string) (base : PyType).

(** [type(value)]: the exact runtime type. *)
Definition type (value : PyValue) : PyType :=
  match value with
  | PyInt _ => ty_int
  | PyFloat _ => ty_float
  | PyBool _ => ty_bool
  | PyStr _ => ty_str
  | PyNone => ty_NoneType
  | PyList _ => ty_list
  | PyInstance cls base => ty_class cls base
  end.

(** Binary64 parameters and literals. *)
Definition prec : Z := 53.
Definition emax : Z := 1024.

Definition float_of_int (n : Z) : spec_float := binary_normalize prec emax n 0 false.

(** [float_lit m e] is the binary64 nearest to [m * 2^e]. *)
Definition float_lit (m e : Z) : spec_float := binary_normalize prec emax m e false.

(* ================================================================== *)
(** ** Exceptions and outcomes *)

Inductive PyException : Type :=
| ItemDataTypeNotSupported (data_type : PyType) (analyzer_type : PyType)
                           (supported_types : list PyType)
| AttributeError (obj_type : PyType) (name : string)
| TypeError (msg : string).

Inductive Outcome (A : Type) : Type :=
| Return (a : A)
| Raise (e : PyException).

Arguments Return {A} a.
Arguments Raise {A} e.

(* ================================================================== *)
(** ** The statistics record ([xai.data.explorer.numerical.numerical_stats]) *)

(** Serialized values: a number or the explicit "no value" marker. *)
Inductive JSON : Type :=
| JNull
| JInt (n : Z)
| JFloat (f : spec_float).

Module NumericalStats.

(** Modelled from the spec: the class [NumericalStats] (its module is
    not part of the sources).  Section 4.2 fixes its fields; a field
    holds no value until it has been computed. *)
Record t : Type := {
  count : option Z;
  min : option spec_float;
  max : option spec_float;
  mean : option spec_float;
  median : option spec_float;
  variance : option spec_float;
  standard_deviation : option spec_float;
  sum : option spec_float
}.

(** Modelled from the spec: the constructor [NumericalStats()], a record
    in which nothing has been computed yet. *)
Definition new : t :=
  {| count := None; min := None; max := None; mean := None; median := None;
     variance := None; standard_deviation := None; sum := None |}.

Definition fadd : spec_float -> spec_float -> spec_float := SFadd prec emax.
Definition fsub : spec_float -> spec_float -> spec_float := SFsub prec emax.
Definition fmul : spec_float -> spec_float -> spec_float := SFmul prec emax.
Definition fdiv : spec_float -> spec_float -> spec_float := SFdiv prec emax.
Definition fsqrt : spec_float -> spec_float := SFsqrt prec emax.

(** Modelled from the spec: "statistics are computed treating all values
    as real numbers".  The deriver may assume numeric input (section 3);
    anything else has no numeric reading. *)
Definition as_real (v : PyValue) : spec_float :=
  match v with
  | PyInt n => float_of_int n
  | PyFloat f => f
  | PyBool b => float_of_int (if b then 1 else 0)
  | _ => S754_nan
  end.

(** Modelled from the spec: "sort a local copy of the snapshot
    ascending". *)
Fixpoint insert (x : spec_float) (l : list spec_float) : list spec_float :=
  match l with
  | [] => [x]
  | y :: l' => if SFleb x y then x :: y :: l' else y :: insert x l'
  end.

Definition sorted (l : list spec_float) : list spec_float :=
  fold_right insert [] l.

(** Modelled from the spec: "middle value of the values sorted ascending;
    for an even count, the mean of the two central values". *)
Definition median_of (xs : list spec_float) : spec_float :=
  let n := List.length xs in
  if Nat.even n
  then fdiv (fadd (nth (n / 2 - 1) xs S754_nan) (nth (n / 2) xs S754_nan))
            (float_of_int 2)
  else nth (n / 2) xs S754_nan.

Definition sum_sq_dev (mu : spec_float) (xs : list spec_float) : spec_float :=
  fold_left (fun acc x => fadd acc (fmul (fsub x mu) (fsub x mu))) xs
            (S754_zero false).

(** Modelled from the spec: the method [updates_stats_from_values]
    (section 4.2): count, sum and mean in one pass over the sorted copy,
    population variance as the mean of squared deviations, the standard
    deviation as its square root, and "no value" for every statistic that
    is undefined on an empty snapshot. *)
Definition updates_stats_from_values (self : t) (values : list PyValue) : t :=
  let xs := sorted (map as_real values) in
  let n := Z.of_nat (List.length xs) in
  let total := fold_left fadd xs (S754_zero false) in
  match xs with
  | [] =>
      {| count := Some n; min := None; max := None; mean := None;
         median := None; variance := None; standard_deviation := None;
         sum := Some total |}
  | x0 :: _ =>
      let mu := fdiv total (float_of_int n) in
      let var := fdiv (sum_sq_dev mu xs) (float_of_int n) in
      {| count := Some n; min := Some x0; max := Some (last xs x0);
         mean := Some mu; median := Some (median_of xs);
         variance := Some var; standard_deviation := Some (fsqrt var);
         sum := Some total |}
  end.

Definition json_float (o : option spec_float) : JSON :=
  match o with Some f => JFloat f | None => JNull end.

Definition json_int (o : option Z) : JSON :=
  match o with Some n => JInt n | None => JNull end.

(** Modelled from the spec: the method [to_json], "a plain mapping from
    statistic name to numeric value (or the no-value marker)", in the
    order of the fixed schema. *)
Definition to_json (self : t) : list (string * JSON) :=
  [ ("count", json_int (count self));
    ("min", json_float (min self));
    ("max", json_float (max self));
    ("mean", json_float (mean self));
    ("median", json_float (median self));
    ("variance", json_float (variance self));
    ("standard_deviation", json_float (standard_deviation self));
    ("sum", json_float (sum self)) ].

End NumericalStats.

(* ================================================================== *)
(** ** The analyzer *)

(** The instance: the two attributes [__init__] assigns. *)
Record NumericDataAnalyzer : Type := {
  _values : list PyValue;
  stats : option NumericalStats.t
}.

(** [type(self)]. *)
Definition NumericDataAnalyzer_type : PyType :=
  ty_class "NumericDataAnalyzer" (ty_class "AbstractDataAnalyzer" ty_object).

(** The class attribute [SUPPORTED_TYPES = [int, float]]. *)
Definition SUPPORTED_TYPES : list PyType := [ty_int; ty_float].

(** What an attribute of the instance can hold. *)
Inductive Attribute : Type :=
| attr_list (items : list PyValue)
| attr_stats (s : option NumericalStats.t)
| attr_types (l : list PyType)
| attr_method (qualname : string).

(** The instance's [__dict__]: what [__init__] and the methods assign
    through [self]. *)
Definition instance_dict (self : NumericDataAnalyzer) : list (string * Attribute) :=
  [ ("_values", attr_list (_values self));
    ("stats", attr_stats (stats self)) ].

(** The names the class body of [NumericDataAnalyzer] binds. *)
Definition class_dict : list (string * Attribute) :=
  [ ("SUPPORTED_TYPES", attr_types SUPPORTED_TYPES);
    ("__init__", attr_method "NumericDataAnalyzer.__init__");
    ("feed", attr_method "NumericDataAnalyzer.feed");
    ("feed_all", attr_method "NumericDataAnalyzer.feed_all");
    ("get_statistics", attr_method "NumericDataAnalyzer.get_statistics") ].

(** Modelled from the spec: the base class [AbstractDataAnalyzer] (its
    module is not part of the sources).  Section 6 gives it as the shared
    capability set {feed, feed_all, get_statistics} and nothing more. *)
Definition base_class_dict : list (string * Attribute) :=
  [ ("feed", attr_method "AbstractDataAnalyzer.feed");
    ("feed_all", attr_method "AbstractDataAnalyzer.feed_all");
    ("get_statistics", attr_method "AbstractDataAnalyzer.get_statistics") ].

Fixpoint lookup {A : Type} (name : string) (d : list (string * A)) : option A :=
  match d with
  | [] => None
  | (k, a) :: d' => if String.eqb name k then Some a else lookup name d'
  end.

(** A method of the analyzer: it may raise, and it leaves the instance in
    the state reached when it returned or raised. *)
Definition Method (A : Type) : Type :=
  NumericDataAnalyzer -> Outcome A * NumericDataAnalyzer.

Definition ret {A : Type} (a : A) : Method A := fun self => (Return a, self).

Definition raise {A : Type} (e : PyException) : Method A :=
  fun self => (Raise e, self).

Definition bind {A B : Type} (m : Method A) (k : A -> Method B) : Method B :=
  fun self =>
    match m self with
    | (Return a, self') => k a self'
    | (Raise e, self') => (Raise e, self')
    end.

Declare Scope method_scope.
Delimit Scope method_scope with method.
Notation "x <- m ;; k" := (bind m (fun x => k))
  (at level 61, m at next level, right associativity) : method_scope.
Notation "m ;; k" := (bind m (fun _ => k))
  (at level 61, right associativity) : method_scope.
Open Scope method_scope.

(** [self.name]: the instance's own attributes first, then the class, then
    its base. *)
Definition getattr (name : string) : Method Attribute :=
  fun self =>
    match lookup name (instance_dict self ++ class_dict ++ base_class_dict) with
    | Some a => (Return a, self)
    | None => (Raise (AttributeError NumericDataAnalyzer_type name), self)
    end.

(** The attribute read as a list of values. *)
Definition as_list (a : Attribute) : Method (list PyValue) :=
  match a with
  | attr_list items => ret items
  | _ => raise (TypeError "not a list")
  end.

(** [self._values = items] (the effect of mutating the buffer in place). *)
Definition set_values (items : list PyValue) : Method unit :=
  fun self => (Return tt, {| _values := items; stats := stats self |}).

(** [self.stats = s]. *)
Definition set_stats (s : NumericalStats.t) : Method unit :=
  fun self => (Return tt, {| _values := _values self; stats := Some s |}).

(** [__init__]: after the base class initializer, an empty buffer and no
    statistics. *)
Definition __init__ : NumericDataAnalyzer := {| _values := []; stats := None |}.

(** [feed]:
<<
    if type(value) not in NumericDataAnalyzer.SUPPORTED_TYPES:
        raise ItemDataTypeNotSupported(type(value), type(self),
                                       NumericDataAnalyzer.SUPPORTED_TYPES)
    self._values.append(value)
>> *)
Definition feed (value : PyValue) : Method unit :=
  if negb (contains (type value) SUPPORTED_TYPES)
  then raise (ItemDataTypeNotSupported (type value) NumericDataAnalyzer_type
                                       SUPPORTED_TYPES)
  else
    a <- getattr "_values" ;;
    buffer <- as_list a ;;
    set_values (buffer ++ [value]).

(** [feed_all]:
<<
    for value in values:
        self.feed(value)
>> *)
Fixpoint feed_all (values : list PyValue) : Method unit :=
  match values with
  | [] => ret tt
  | value :: rest => feed value ;; feed_all rest
  end.

(** [get_statistics]:
<<
    self.stats = NumericalStats()
    self.stats.updates_stats_from_values(self.values)
    return self.stats.to_json()
>>
    The second statement reads the attribute [values] of the instance. *)
Definition get_statistics : Method (list (string * JSON)) :=
  set_stats NumericalStats.new ;;
  a <- getattr "values" ;;
  snapshot <- as_list a ;;
  let s := NumericalStats.updates_stats_from_values NumericalStats.new snapshot in
  set_stats s ;;
  ret (NumericalStats.to_json s).

(** What [get_statistics] would be had it read the buffer the way [feed]
    does, through [self._values].  Not the source: kept to tell the
    attribute name apart from the deriver in the results below. *)
Definition get_statistics_of_buffer : Method (list (string * JSON)) :=
  set_stats NumericalStats.new ;;
  a <- getattr "_values" ;;
  snapshot <- as_list a ;;
  let s := NumericalStats.updates_stats_from_values NumericalStats.new snapshot in
  set_stats s ;;
  ret (NumericalStats.to_json s).

(** A value of a supported numeric kind. *)
Definition supported (value : PyValue) : Prop :=
  type value = ty_int \/ type value = ty_float.

Definition supportedb (value : PyValue) : bool :=
  contains (type value) SUPPORTED_TYPES.

(** The longest prefix whose elements all pass [p]. *)
Fixpoint take_while {A : Type} (p : A -> bool) (l : list A) : list A :=
  match l with
  | [] => []
  | x :: l' => if p x then x :: take_while p l' else []
  end.

(** One call on the instance by a caller that goes on whether the call
    returned or raised: the instance afterwards is the one the call left. *)
Inductive step : NumericDataAnalyzer -> NumericDataAnalyzer -> Prop :=
| step_feed (value : PyValue) (self : NumericDataAnalyzer) :
    step self (snd (feed value self))
| step_feed_all (values : list PyValue) (self : NumericDataAnalyzer) :
    step self (snd (feed_all values self))
| step_get_statistics (self : NumericDataAnalyzer) :
    step self (snd (get_statistics self)).

(** Any number of calls, one after the other. *)
Inductive steps : NumericDataAnalyzer -> NumericDataAnalyzer -> Prop :=
| steps_refl (self : NumericDataAnalyzer) : steps self self
| steps_snoc (a b c : NumericDataAnalyzer) : steps a b -> step b c -> steps a c.

(** The states an analyzer can be in after construction. *)
Definition reachable (self : NumericDataAnalyzer) : Prop := steps __init__ self.

(** [self.feed_all(self._values)]: the loop of [feed_all] over the
    analyzer's own buffer.  The [for] statement iterates over the list
    object itself: at each turn it reads position [i] of the list as it is
    then, and it ends when [i] has reached the list's current length.
    [fuel] bounds the number of turns; [None] means the loop is still
    running when the fuel is spent. *)
Fixpoint feed_all_own_buffer (fuel i : nat) (self : NumericDataAnalyzer)
  : option (Outcome unit * NumericDataAnalyzer) :=
  match fuel with
  | O => None
  | S fuel' =>
      match nth_error (_values self) i with
      | None => Some (Return tt, self)
      | Some value =>
          match feed value self with
          | (Return _, self') => feed_all_own_buffer fuel' (S i) self'
          | (Raise e, self') => Some (Raise e, self')
          end
      end
  end.

(* ================================================================== *)
(** ** The type check *)

Lemma contains_SUPPORTED_TYPES (t : PyType) :
  contains t SUPPORTED_TYPES = true <-> t = ty_int \/ t = ty_float.
Proof.
  unfold contains, SUPPORTED_TYPES; split.
  - destruct t; simpl; intro H; try discriminate H; auto.
  - intros [-> | ->]; reflexivity.
Qed.

Lemma supportedb_true (value : PyValue) :
  supportedb value = true <-> supported value.
Proof. apply contains_SUPPORTED_TYPES. Qed.

Lemma supportedb_false (value : PyValue) :
  supportedb value = false <-> ~ supported value.
Proof.
  rewrite <- supportedb_true.
  destruct (supportedb value); split; congruence.
Qed.

(** The subclass test and the membership test differ: [bool] passes the
    first and fails the second. *)
Lemma bool_is_subclass_of_int : issubclass ty_bool ty_int = true.
Proof. reflexivity. Qed.

(* ================================================================== *)
(** ** [feed] and [feed_all] *)

Lemma feed_accepts (value : PyValue) (self : NumericDataAnalyzer) :
  supported value ->
  feed value self =
    (Return tt, {| _values := _values self ++ [value]; stats := stats self |}).
Proof.
  intro H. apply supportedb_true in H. unfold supportedb in H.
  unfold feed. rewrite H. reflexivity.
Qed.

Lemma feed_rejects (value : PyValue) (self : NumericDataAnalyzer) :
  ~ supported value ->
  feed value self =
    (Raise (ItemDataTypeNotSupported (type value) NumericDataAnalyzer_type
                                     [ty_int; ty_float]),
     self).
Proof.
  intro H. apply supportedb_false in H. unfold supportedb in H.
  unfold feed. rewrite H. reflexivity.
Qed.

Lemma analyzer_eta (self : NumericDataAnalyzer) :
  {| _values := _values self; stats := stats self |} = self.
Proof. destruct self; reflexivity. Qed.

Lemma feed_all_accepts (values : list PyValue) :
  Forall supported values ->
  forall self,
    feed_all values self =
      (Return tt, {| _values := _values self ++ values; stats := stats self |}).
Proof.
  induction 1 as [| value rest Hv _ IH]; intro self.
  - simpl. unfold ret. rewrite app_nil_r, analyzer_eta. reflexivity.
  - simpl. unfold bind. rewrite (feed_accepts _ _ Hv), IH. simpl.
    rewrite <- app_assoc. reflexivity.
Qed.

Lemma feed_all_app (pre rest : list PyValue) (self : NumericDataAnalyzer) :
  Forall supported pre ->
  feed_all (pre ++ rest) self =
    feed_all rest {| _values := _values self ++ pre; stats := stats self |}.
Proof.
  intro H. revert self.
  induction H as [| value pre' Hv _ IH]; intro self.
  - simpl. rewrite app_nil_r, analyzer_eta. reflexivity.
  - simpl. unfold bind at 1. rewrite (feed_accepts _ _ Hv), IH. simpl.
    rewrite <- app_assoc. reflexivity.
Qed.

(** A sequence with an unsupported value splits at the first one. *)
Lemma first_unsupported (values : list PyValue) :
  Exists (fun v => ~ supported v) values ->
  exists pre v post,
    values = pre ++ v :: post /\ Forall supported pre /\ ~ supported v.
Proof.
  induction values as [| x rest IH]; intro H.
  - inversion H.
  - destruct (supportedb x) eqn:Hx.
    + apply supportedb_true in Hx.
      assert (Hrest : Exists (fun v => ~ supported v) rest).
      { inversion H as [? ? Hbad | ? ? Hbad]; subst; [contradiction | exact Hbad]. }
      destruct (IH Hrest) as (pre & v & post & -> & Hpre & Hv).
      exists (x :: pre), v, post. repeat split; auto.
    + apply supportedb_false in Hx.
      exists [], x, rest. repeat split; auto.
Qed.

(** C7: a value of a supported numeric kind is accepted by [feed]; it is
    appended at the end of the buffer, the buffer grows by exactly one, and
    every element buffered before keeps its value and its position. *)
Theorem feed_appends_at_end (value : PyValue) (self : NumericDataAnalyzer) :
  supported value ->
  exists self',
    feed value self = (Return tt, self') /\
    _values self' = _values self ++ [value] /\
    List.length (_values self') = S (List.length (_values self)) /\
    (forall i, (i < List.length (_values self))%nat ->
               nth_error (_values self') i = nth_error (_values self) i) /\
    nth_error (_values self') (List.length (_values self)) = Some value /\
    stats self' = stats self.
Proof.
  intro H. eexists. split; [apply feed_accepts; exact H |]. simpl.
  repeat split.
  - rewrite length_app. simpl. lia.
  - intros i Hi. apply nth_error_app1. exact Hi.
  - rewrite nth_error_app2 by lia. rewrite Nat.sub_diag. reflexivity.
Qed.

Lemma feed_appends_at_end_witness :
  supported (PyInt 7) /\
  exists self',
    feed (PyInt 7) {| _values := [PyFloat (float_lit 5 (-1))]; stats := None |}
      = (Return tt, self') /\
    _values self' = [PyFloat (float_lit 5 (-1))] ++ [PyInt 7] /\
    List.length (_values self') = 2%nat /\
    (forall i, (i < 1)%nat ->
               nth_error (_values self') i
               = nth_error [PyFloat (float_lit 5 (-1))] i) /\
    nth_error (_values self') 1 = Some (PyInt 7) /\
    stats self' = None.
Proof.
  split; [left; reflexivity |].
  apply (feed_appends_at_end (PyInt 7)
           {| _values := [PyFloat (float_lit 5 (-1))]; stats := None |}).
  left; reflexivity.
Defined.

(** C3: a value whose runtime kind is not a supported numeric kind makes
    [feed] raise [ItemDataTypeNotSupported] carrying the kind of the
    rejected value, the type of the analyzer and the accepted kinds; the
    instance, and so its buffer, is left as it was. *)
Theorem feed_unsupported_raises (value : PyValue) (self : NumericDataAnalyzer) :
  ~ supported value ->
  exists self',
    feed value self =
      (Raise (ItemDataTypeNotSupported (type value) NumericDataAnalyzer_type
                                       SUPPORTED_TYPES),
       self') /\
    self' = self /\
    _values self' = _values self.
Proof.
  intro H. exists self. split; [apply feed_rejects; exact H |]. split; reflexivity.
Qed.

Lemma feed_unsupported_raises_witness :
  ~ supported (PyStr "seven") /\
  exists self',
    feed (PyStr "seven") {| _values := [PyInt 1]; stats := None |} =
      (Raise (ItemDataTypeNotSupported ty_str NumericDataAnalyzer_type
                                       [ty_int; ty_float]),
       self') /\
    self' = {| _values := [PyInt 1]; stats := None |} /\
    _values self' = [PyInt 1].
Proof.
  assert (H : ~ supported (PyStr "seven")) by (intros [H | H]; discriminate H).
  split; [exact H |].
  exact (feed_unsupported_raises (PyStr "seven")
           {| _values := [PyInt 1]; stats := None |} H).
Defined.

(** C4: on a sequence holding a value of an unsupported kind, [feed_all]
    feeds in order, raises at the first such value, and leaves the buffer
    extended by exactly the values before it; what follows the failing
    value has no effect on the outcome. *)
Theorem feed_all_fail_fast (values : list PyValue) (self : NumericDataAnalyzer) :
  Exists (fun v => ~ supported v) values ->
  exists pre v post,
    values = pre ++ v :: post /\
    Forall supported pre /\
    ~ supported v /\
    feed_all values self =
      (Raise (ItemDataTypeNotSupported (type v) NumericDataAnalyzer_type
                                       SUPPORTED_TYPES),
       {| _values := _values self ++ pre; stats := stats self |}) /\
    forall later, feed_all (pre ++ v :: later) self = feed_all values self.
Proof.
  intro H.
  destruct (first_unsupported values H) as (pre & v & post & -> & Hpre & Hv).
  exists pre, v, post.
  assert (Hrun : forall later,
             feed_all (pre ++ v :: later) self =
               (Raise (ItemDataTypeNotSupported (type v) NumericDataAnalyzer_type
                                                SUPPORTED_TYPES),
                {| _values := _values self ++ pre; stats := stats self |})).
  { intro later. rewrite (feed_all_app _ _ _ Hpre). simpl. unfold bind.
    rewrite (feed_rejects _ _ Hv). reflexivity. }
  repeat split; auto.
  intro later. rewrite !Hrun. reflexivity.
Qed.

Lemma feed_all_fail_fast_witness :
  exists pre v post,
    [PyInt 1; PyFloat (float_lit 5 (-1)); PyStr "x"; PyInt 3; PyNone]
      = pre ++ v :: post /\
    Forall supported pre /\
    ~ supported v /\
    feed_all [PyInt 1; PyFloat (float_lit 5 (-1)); PyStr "x"; PyInt 3; PyNone]
             {| _values := [PyInt 0]; stats := None |} =
      (Raise (ItemDataTypeNotSupported (type v) NumericDataAnalyzer_type
                                       SUPPORTED_TYPES),
       {| _values := [PyInt 0] ++ pre; stats := None |}) /\
    forall later,
      feed_all (pre ++ v :: later) {| _values := [PyInt 0]; stats := None |} =
      feed_all [PyInt 1; PyFloat (float_lit 5 (-1)); PyStr "x"; PyInt 3; PyNone]
               {| _values := [PyInt 0]; stats := None |}.
Proof.
  apply (feed_all_fail_fast
           [PyInt 1; PyFloat (float_lit 5 (-1)); PyStr "x"; PyInt 3; PyNone]
           {| _values := [PyInt 0]; stats := None |}).
  apply Exists_cons_tl, Exists_cons_tl, Exists_cons_hd.
  intros [H | H]; discriminate H.
Defined.

(** C10: the check is membership of the exact runtime type in
    [[int, float]]: whatever the value's type derives from, when that type
    is neither [int] nor [float] the value is rejected with
    [ItemDataTypeNotSupported] and the instance is unchanged.  A boolean,
    whose type is a subclass of [int], is such a value. *)
Theorem feed_checks_exact_type (value : PyValue) (self : NumericDataAnalyzer) :
  type value <> ty_int ->
  type value <> ty_float ->
  contains (type value) SUPPORTED_TYPES = false /\
  feed value self =
    (Raise (ItemDataTypeNotSupported (type value) NumericDataAnalyzer_type
                                     SUPPORTED_TYPES),
     self) /\
  forall b : bool,
    issubclass (type (PyBool b)) ty_int = true /\
    feed (PyBool b) self =
      (Raise (ItemDataTypeNotSupported ty_bool NumericDataAnalyzer_type
                                       SUPPORTED_TYPES),
       self).
Proof.
  intros Hint Hfloat.
  assert (H : ~ supported value) by (intros [H | H]; contradiction).
  split; [apply supportedb_false; exact H |].
  split; [apply feed_rejects; exact H |].
  intro b. split; [reflexivity |].
  apply (feed_rejects (PyBool b)). intros [Hb | Hb]; discriminate Hb.
Qed.

Lemma feed_checks_exact_type_witness :
  issubclass (type (PyInstance "MyInt" ty_int)) ty_int = true /\
  contains (type (PyInstance "MyInt" ty_int)) SUPPORTED_TYPES = false /\
  feed (PyInstance "MyInt" ty_int) __init__ =
    (Raise (ItemDataTypeNotSupported (ty_class "MyInt" ty_int)
                                     NumericDataAnalyzer_type SUPPORTED_TYPES),
     __init__) /\
  forall b : bool,
    issubclass (type (PyBool b)) ty_int = true /\
    feed (PyBool b) __init__ =
      (Raise (ItemDataTypeNotSupported ty_bool NumericDataAnalyzer_type
                                       SUPPORTED_TYPES),
       __init__).
Proof.
  split; [reflexivity |].
  apply (feed_checks_exact_type (PyInstance "MyInt" ty_int) __init__);
    discriminate.
Defined.

(* ================================================================== *)
(** ** [get_statistics] *)

(** The buffer lives under the name [_values]; the instance, its class and
    the base class bind no attribute named [values]. *)
Lemma getattr__values (self : NumericDataAnalyzer) :
  getattr "_values" self = (Return (attr_list (_values self)), self).
Proof. reflexivity. Qed.

Lemma getattr_values (self : NumericDataAnalyzer) :
  getattr "values" self =
    (Raise (AttributeError NumericDataAnalyzer_type "values"), self).
Proof. reflexivity. Qed.

(** So [get_statistics] installs a fresh record and then raises, in every
    state. *)
Lemma get_statistics_raises (self : NumericDataAnalyzer) :
  get_statistics self =
    (Raise (AttributeError NumericDataAnalyzer_type "values"),
     {| _values := _values self; stats := Some NumericalStats.new |}).
Proof. reflexivity. Qed.

(** C8: [get_statistics] leaves the buffer as it was; what it writes is
    the cached record, which it replaces whatever was cached before. *)
Theorem get_statistics_frame (self : NumericDataAnalyzer) :
  _values (snd (get_statistics self)) = _values self /\
  (exists s, stats (snd (get_statistics self)) = Some s) /\
  forall previous,
    snd (get_statistics {| _values := _values self; stats := previous |}) =
    snd (get_statistics self).
Proof.
  split; [| split].
  - rewrite get_statistics_raises. reflexivity.
  - rewrite get_statistics_raises. eexists. reflexivity.
  - intro previous. rewrite !get_statistics_raises. reflexivity.
Qed.

(** C1: [feed_all] on values of supported kinds followed by
    [get_statistics] is claimed to return a record whose count is the
    length of the sequence.  For every such sequence the values are
    buffered, in order, and [get_statistics] then raises [AttributeError]
    for [values] instead of returning a count. *)
Theorem get_statistics_count_raises (values : list PyValue) :
  Forall supported values ->
  (feed_all values ;; get_statistics) __init__ =
    (Raise (AttributeError NumericDataAnalyzer_type "values"),
     {| _values := values; stats := Some NumericalStats.new |}).
Proof.
  intro H. unfold bind. rewrite (feed_all_accepts values H).
  rewrite get_statistics_raises. reflexivity.
Qed.

Lemma get_statistics_count_raises_witness :
  Forall supported [PyInt 1; PyInt 2; PyInt 3] /\
  (feed_all [PyInt 1; PyInt 2; PyInt 3] ;; get_statistics) __init__ =
    (Raise (AttributeError NumericDataAnalyzer_type "values"),
     {| _values := [PyInt 1; PyInt 2; PyInt 3];
        stats := Some NumericalStats.new |}).
Proof.
  assert (H : Forall supported [PyInt 1; PyInt 2; PyInt 3])
    by (repeat constructor).
  split; [exact H |].
  exact (get_statistics_count_raises [PyInt 1; PyInt 2; PyInt 3] H).
Defined.

(** C2: on an analyzer into which nothing was fed, [get_statistics] is
    claimed to raise nothing and to return count 0 with every other
    statistic the no-value marker.  It raises [AttributeError] for
    [values]. *)
Theorem get_statistics_empty_raises :
  get_statistics __init__ =
    (Raise (AttributeError NumericDataAnalyzer_type "values"),
     {| _values := []; stats := Some NumericalStats.new |}).
Proof. reflexivity. Qed.

(** C5: two fresh analyzers fed the same values in different orders are
    claimed to return identical records from [get_statistics].  Neither
    returns a record: after either feed the call raises [AttributeError]
    for [values]. *)
Theorem get_statistics_permuted_raises (values1 values2 : list PyValue) :
  Permutation values1 values2 ->
  Forall supported values1 ->
  fst ((feed_all values1 ;; get_statistics) __init__) =
    Raise (AttributeError NumericDataAnalyzer_type "values") /\
  fst ((feed_all values2 ;; get_statistics) __init__) =
    Raise (AttributeError NumericDataAnalyzer_type "values").
Proof.
  intros Hperm H1.
  assert (H2 : Forall supported values2)
    by (exact (Permutation_Forall Hperm H1)).
  unfold bind.
  rewrite (feed_all_accepts values1 H1), (feed_all_accepts values2 H2).
  rewrite !get_statistics_raises. split; reflexivity.
Qed.

Lemma get_statistics_permuted_raises_witness :
  fst ((feed_all [PyInt 3; PyInt 1; PyInt 2] ;; get_statistics) __init__) =
    Raise (AttributeError NumericDataAnalyzer_type "values") /\
  fst ((feed_all [PyInt 1; PyInt 2; PyInt 3] ;; get_statistics) __init__) =
    Raise (AttributeError NumericDataAnalyzer_type "values").
Proof.
  apply (get_statistics_permuted_raises
           [PyInt 3; PyInt 1; PyInt 2] [PyInt 1; PyInt 2; PyInt 3]).
  - apply perm_trans with (l' := [PyInt 1; PyInt 3; PyInt 2]).
    + apply perm_swap.
    + apply perm_skip, perm_swap.
  - repeat constructor.
Defined.

(** C6: after feeding [[2, 4, 4, 4, 5, 5, 7, 9]], [get_statistics] is
    claimed to return count 8, mean 5.0, variance 4.0, standard deviation
    2.0, min 2, max 9 and median 4.5.  It raises [AttributeError] for
    [values] and returns nothing. *)
Theorem get_statistics_scenario_raises :
  fst ((feed_all (map PyInt [2; 4; 4; 4; 5; 5; 7; 9]%Z) ;; get_statistics)
         __init__) =
    Raise (AttributeError NumericDataAnalyzer_type "values").
Proof. reflexivity. Qed.

(** C9: the mixed sequence [[1, 2.5, 3]] is accepted by [feed_all] with no
    type error, all three values buffered as fed; computing statistics
    from them is claimed to follow, and [get_statistics] raises
    [AttributeError] for [values] before any statistic is computed. *)
Theorem mixed_values_accepted_statistics_raise :
  feed_all [PyInt 1; PyFloat (float_lit 5 (-1)); PyInt 3] __init__ =
    (Return tt,
     {| _values := [PyInt 1; PyFloat (float_lit 5 (-1)); PyInt 3];
        stats := None |}) /\
  get_statistics
    {| _values := [PyInt 1; PyFloat (float_lit 5 (-1)); PyInt 3];
       stats := None |} =
    (Raise (AttributeError NumericDataAnalyzer_type "values"),
     {| _values := [PyInt 1; PyFloat (float_lit 5 (-1)); PyInt 3];
        stats := Some NumericalStats.new |}).
Proof. split; reflexivity. Qed.

(* ================================================================== *)
(** ** The deriver on the buffer

    The results of this section are about [get_statistics_of_buffer], the
    reading of the buffer under the name [feed] uses: with it the record
    the specification describes is produced. *)

Lemma get_statistics_of_buffer_returns (self : NumericDataAnalyzer) :
  let s := NumericalStats.updates_stats_from_values NumericalStats.new
             (_values self) in
  get_statistics_of_buffer self =
    (Return (NumericalStats.to_json s),
     {| _values := _values self; stats := Some s |}).
Proof. reflexivity. Qed.

Lemma insert_length (x : spec_float) (l : list spec_float) :
  List.length (NumericalStats.insert x l) = S (List.length l).
Proof.
  induction l as [| y l IH]; simpl; [reflexivity |].
  destruct (SFleb x y); simpl; [reflexivity | now rewrite IH].
Qed.

Lemma sorted_length (l : list spec_float) :
  List.length (NumericalStats.sorted l) = List.length l.
Proof.
  induction l as [| x l IH]; simpl; [reflexivity |].
  unfold NumericalStats.sorted in *. rewrite insert_length, IH. reflexivity.
Qed.

Lemma deriver_count (values : list PyValue) :
  NumericalStats.count
    (NumericalStats.updates_stats_from_values NumericalStats.new values) =
  Some (Z.of_nat (List.length values)).
Proof.
  unfold NumericalStats.updates_stats_from_values.
  rewrite <- (length_map NumericalStats.as_real values).
  rewrite <- (sorted_length (map NumericalStats.as_real values)).
  destruct (NumericalStats.sorted (map NumericalStats.as_real values));
    reflexivity.
Qed.

Lemma of_buffer_count (values : list PyValue) :
  Forall supported values ->
  exists json self',
    (feed_all values ;; get_statistics_of_buffer) __init__ = (Return json, self') /\
    lookup "count" json = Some (JInt (Z.of_nat (List.length values))).
Proof.
  intro H. unfold bind. rewrite (feed_all_accepts _ H).
  rewrite get_statistics_of_buffer_returns. simpl _values.
  do 2 eexists. split; [reflexivity |].
  simpl. rewrite deriver_count. reflexivity.
Qed.

Lemma of_buffer_empty :
  fst (get_statistics_of_buffer __init__) =
    Return [ ("count", JInt 0); ("min", JNull); ("max", JNull);
             ("mean", JNull); ("median", JNull); ("variance", JNull);
             ("standard_deviation", JNull);
             ("sum", JFloat (S754_zero false)) ].
Proof. reflexivity. Qed.

Lemma of_buffer_scenario :
  fst ((feed_all (map PyInt [2; 4; 4; 4; 5; 5; 7; 9]%Z) ;;
        get_statistics_of_buffer) __init__) =
    Return [ ("count", JInt 8);
             ("min", JFloat (float_of_int 2));
             ("max", JFloat (float_of_int 9));
             ("mean", JFloat (float_of_int 5));
             ("median", JFloat (float_lit 9 (-1)));
             ("variance", JFloat (float_of_int 4));
             ("standard_deviation", JFloat (float_of_int 2));
             ("sum", JFloat (float_of_int 40)) ].
Proof. vm_compute. reflexivity. Qed.

Lemma of_buffer_permuted :
  fst ((feed_all [PyInt 3; PyInt 1; PyInt 2] ;; get_statistics_of_buffer)
         __init__) =
  fst ((feed_all [PyInt 1; PyInt 2; PyInt 3] ;; get_statistics_of_buffer)
         __init__).
Proof. vm_compute. reflexivity. Qed.

(* ================================================================== *)
(** ** More on [feed] and [feed_all] *)

Lemma feed_run (value : PyValue) (self : NumericDataAnalyzer) :
  feed value self =
    if supportedb value
    then (Return tt, {| _values := _values self ++ [value]; stats := stats self |})
    else (Raise (ItemDataTypeNotSupported (type value) NumericDataAnalyzer_type
                                          SUPPORTED_TYPES),
          self).
Proof.
  unfold feed, supportedb.
  destruct (contains (type value) SUPPORTED_TYPES); reflexivity.
Qed.

(** [feed_all] as one equation: the first unsupported value decides the
    outcome, the longest supported prefix is what gets buffered. *)
Lemma feed_all_run (values : list PyValue) (self : NumericDataAnalyzer) :
  feed_all values self =
    (match find (fun v => negb (supportedb v)) values with
     | None => Return tt
     | Some v => Raise (ItemDataTypeNotSupported (type v) NumericDataAnalyzer_type
                                                 SUPPORTED_TYPES)
     end,
     {| _values := _values self ++ take_while supportedb values;
        stats := stats self |}).
Proof.
  revert self. induction values as [| x rest IH]; intro self.
  - simpl. unfold ret. rewrite app_nil_r, analyzer_eta. reflexivity.
  - simpl. unfold bind. rewrite feed_run.
    destruct (supportedb x) eqn:Hx; simpl.
    + rewrite IH. simpl. rewrite <- app_assoc. reflexivity.
    + rewrite app_nil_r, analyzer_eta. reflexivity.
Qed.

Lemma take_while_supported (values : list PyValue) :
  Forall supported (take_while supportedb values).
Proof.
  induction values as [| x rest IH]; simpl; [constructor |].
  destruct (supportedb x) eqn:Hx; constructor; [| exact IH].
  apply supportedb_true. exact Hx.
Qed.

Lemma take_while_split (values : list PyValue) :
  exists rest,
    values = take_while supportedb values ++ rest /\
    match rest with
    | [] => find (fun v => negb (supportedb v)) values = None
    | v :: _ => supportedb v = false /\
                find (fun v => negb (supportedb v)) values = Some v
    end.
Proof.
  induction values as [| x values IH].
  - exists []. split; reflexivity.
  - simpl. destruct (supportedb x) eqn:Hx; simpl.
    + destruct IH as (rest & E & Hrest). exists rest. split; [| exact Hrest].
      rewrite <- E. reflexivity.
    + exists (x :: values). split; [reflexivity |]. split; [exact Hx | reflexivity].
Qed.

(** X1: on any sequence and in any state, returning or raising, [feed_all]
    cuts the sequence in two: a first part of supported values, which it
    appends to the buffer in order, and the rest, which it never looks
    past.  The rest is empty and the call returns, or it starts with a
    value whose type is not [int] or [float] and the call raises
    [ItemDataTypeNotSupported] for that value.  The cached statistics are
    the same after as before. *)
Theorem feed_all_outcome (values : list PyValue) (self : NumericDataAnalyzer) :
  exists pre rest,
    values = pre ++ rest /\
    Forall supported pre /\
    _values (snd (feed_all values self)) = _values self ++ pre /\
    stats (snd (feed_all values self)) = stats self /\
    match rest with
    | [] => fst (feed_all values self) = Return tt
    | v :: _ =>
        ~ supported v /\
        fst (feed_all values self) =
          Raise (ItemDataTypeNotSupported (type v) NumericDataAnalyzer_type
                                          SUPPORTED_TYPES)
    end.
Proof.
  destruct (take_while_split values) as (rest & E & Hrest).
  exists (take_while supportedb values), rest.
  rewrite feed_all_run. simpl.
  split; [exact E |].
  split; [apply take_while_supported |].
  split; [reflexivity |]. split; [reflexivity |].
  destruct rest as [| v rest'].
  - rewrite Hrest. reflexivity.
  - destruct Hrest as [Hv Hfind]. rewrite Hfind.
    split; [apply supportedb_false; exact Hv | reflexivity].
Qed.

(** X2: [feed_all] returns normally exactly when every value of the
    sequence has type [int] or [float]. *)
Theorem feed_all_returns_iff (values : list PyValue) (self : NumericDataAnalyzer) :
  fst (feed_all values self) = Return tt <-> Forall supported values.
Proof.
  split.
  - intro Hret.
    destruct (Forall_Exists_dec supported
                (fun v => match supportedb v as b
                                return supportedb v = b -> _ with
                          | true => fun e => left (proj1 (supportedb_true v) e)
                          | false => fun e => right (proj1 (supportedb_false v) e)
                          end eq_refl) values) as [Hall | Hbad].
    + exact Hall.
    + destruct (first_unsupported values) as (pre & v & post & -> & Hpre & Hv).
      { apply Exists_exists. apply Exists_exists in Hbad.
        destruct Hbad as (x & Hin & Hx). exists x. auto. }
      rewrite (feed_all_app _ _ _ Hpre) in Hret. simpl in Hret.
      unfold bind in Hret. rewrite (feed_rejects _ _ Hv) in Hret.
      discriminate Hret.
  - intro Hall. rewrite (feed_all_accepts values Hall). reflexivity.
Qed.

(** X3: feeding a concatenation is feeding the first part and then, when
    that returned, the second: how a sequence is cut into batches makes no
    difference. *)
Theorem feed_all_concat (xs ys : list PyValue) (self : NumericDataAnalyzer) :
  feed_all (xs ++ ys) self = (feed_all xs ;; feed_all ys) self.
Proof.
  revert self. induction xs as [| x xs IH]; intro self.
  - reflexivity.
  - simpl. unfold bind at 1 2 3.
    destruct (feed x self) as [[[] | e] self']; [| reflexivity].
    rewrite IH. reflexivity.
Qed.

(** X9: feeding the same supported values in another order gives a buffer
    with the same elements, each as many times, after the same earlier
    content. *)
Theorem feed_all_permutation (values1 values2 : list PyValue)
        (self : NumericDataAnalyzer) :
  Forall supported values1 ->
  Permutation values1 values2 ->
  fst (feed_all values2 self) = Return tt /\
  Permutation (_values (snd (feed_all values1 self)))
              (_values (snd (feed_all values2 self))) /\
  List.length (_values (snd (feed_all values2 self))) =
    (List.length (_values self) + List.length values1)%nat.
Proof.
  intros H1 Hperm.
  assert (H2 : Forall supported values2) by exact (Permutation_Forall Hperm H1).
  rewrite (feed_all_accepts values1 H1), (feed_all_accepts values2 H2). simpl.
  split; [reflexivity |]. split.
  - apply Permutation_app_head. exact Hperm.
  - rewrite length_app, (Permutation_length Hperm). reflexivity.
Qed.

Lemma feed_all_permutation_witness :
  fst (feed_all [PyInt 1; PyInt 2; PyInt 3] __init__) = Return tt /\
  Permutation (_values (snd (feed_all [PyInt 3; PyInt 1; PyInt 2] __init__)))
              (_values (snd (feed_all [PyInt 1; PyInt 2; PyInt 3] __init__))) /\
  List.length (_values (snd (feed_all [PyInt 1; PyInt 2; PyInt 3] __init__))) =
    (List.length (_values __init__) + 3)%nat.
Proof.
  apply (feed_all_permutation [PyInt 3; PyInt 1; PyInt 2]
                              [PyInt 1; PyInt 2; PyInt 3] __init__).
  - repeat constructor.
  - apply perm_trans with (l' := [PyInt 1; PyInt 3; PyInt 2]).
    + apply perm_swap.
    + apply perm_skip, perm_swap.
Defined.

(* ================================================================== *)
(** ** Invariants over sequences of calls *)

(** One call extends the buffer by supported values, or leaves it. *)
Lemma step_extends (a b : NumericDataAnalyzer) :
  step a b ->
  exists suffix, _values b = _values a ++ suffix /\ Forall supported suffix.
Proof.
  intro H. destruct H as [value self | values self | self].
  - rewrite feed_run. destruct (supportedb value) eqn:Hv; simpl.
    + exists [value]. split; [reflexivity |].
      constructor; [apply supportedb_true; exact Hv | constructor].
    + exists []. split; [now rewrite app_nil_r | constructor].
  - rewrite feed_all_run. simpl.
    exists (take_while supportedb values).
    split; [reflexivity | apply take_while_supported].
  - rewrite get_statistics_raises. simpl.
    exists []. split; [now rewrite app_nil_r | constructor].
Qed.

(** X4: the buffer is append-only.  Over any sequence of calls to [feed],
    [feed_all] and [get_statistics], returning or raising, what was
    buffered before stays at the front, in place, and everything added
    behind it has type [int] or [float]. *)
Theorem buffer_append_only (a b : NumericDataAnalyzer) :
  steps a b ->
  exists suffix, _values b = _values a ++ suffix /\ Forall supported suffix.
Proof.
  induction 1 as [self | a b c _ IH Hstep].
  - exists []. split; [now rewrite app_nil_r | constructor].
  - destruct IH as (s1 & E1 & F1).
    destruct (step_extends b c Hstep) as (s2 & E2 & F2).
    exists (s1 ++ s2). split.
    + rewrite E2, E1, app_assoc. reflexivity.
    + apply Forall_app. split; assumption.
Qed.

Lemma buffer_append_only_witness :
  exists suffix,
    _values (snd (get_statistics
                    (snd (feed_all [PyInt 2; PyStr "x"; PyInt 3]
                            {| _values := [PyInt 1]; stats := None |})))) =
      [PyInt 1] ++ suffix /\
    Forall supported suffix.
Proof.
  apply (buffer_append_only
           {| _values := [PyInt 1]; stats := None |}
           (snd (get_statistics
                   (snd (feed_all [PyInt 2; PyStr "x"; PyInt 3]
                           {| _values := [PyInt 1]; stats := None |}))))).
  eapply steps_snoc; [eapply steps_snoc; [apply steps_refl |] |].
  - apply step_feed_all.
  - apply step_get_statistics.
Defined.

(** X5: in every state an analyzer can reach from its construction, every
    buffered value has type [int] or [float]. *)
Theorem buffer_holds_only_numbers (self : NumericDataAnalyzer) :
  reachable self -> Forall supported (_values self).
Proof.
  unfold reachable. intro H.
  remember __init__ as start eqn:Estart.
  induction H as [self | a b c _ IH Hstep].
  - subst. constructor.
  - specialize (IH Estart).
    destruct (step_extends b c Hstep) as (suffix & E & F).
    rewrite E. apply Forall_app. split; assumption.
Qed.

Lemma buffer_holds_only_numbers_witness :
  Forall supported
    (_values (snd (feed (PyBool true)
                     (snd (feed_all [PyInt 2; PyFloat S754_nan; PyNone; PyInt 3]
                             __init__))))).
Proof.
  apply (buffer_holds_only_numbers
           (snd (feed (PyBool true)
                   (snd (feed_all [PyInt 2; PyFloat S754_nan; PyNone; PyInt 3]
                           __init__))))).
  unfold reachable.
  eapply steps_snoc; [eapply steps_snoc; [apply steps_refl |] |].
  - apply step_feed_all.
  - apply step_feed.
Defined.

(** X6: the outcome of feeding and the buffer it leaves do not depend on
    whether [get_statistics] was called before: statistics requests can be
    interleaved with feeds without disturbing the buffer. *)
Theorem get_statistics_transparent_to_feed (values : list PyValue)
        (self : NumericDataAnalyzer) :
  fst (feed_all values (snd (get_statistics self))) = fst (feed_all values self) /\
  _values (snd (feed_all values (snd (get_statistics self)))) =
    _values (snd (feed_all values self)).
Proof.
  rewrite !feed_all_run, get_statistics_raises. simpl. split; reflexivity.
Qed.

(** X7: acceptance looks at the type alone, never at the value: [feed]
    takes every [int], of any magnitude and sign, and every [float], the
    infinities and not-a-number included, and buffers it as given. *)
Theorem feed_accepts_every_number (self : NumericDataAnalyzer) :
  (forall n : Z,
      feed (PyInt n) self =
        (Return tt,
         {| _values := _values self ++ [PyInt n]; stats := stats self |})) /\
  (forall f : spec_float,
      feed (PyFloat f) self =
        (Return tt,
         {| _values := _values self ++ [PyFloat f]; stats := stats self |})).
Proof.
  split; intro x; apply feed_accepts; [left | right]; reflexivity.
Qed.

(* ================================================================== *)
(** ** [feed_all] on the analyzer's own buffer *)

Lemma own_buffer_running (fuel : nat) :
  forall (i : nat) (self : NumericDataAnalyzer),
    Forall supported (_values self) ->
    (i < List.length (_values self))%nat ->
    feed_all_own_buffer fuel i self = None.
Proof.
  induction fuel as [| fuel IH]; intros i self Hall Hi; [reflexivity |].
  simpl.
  destruct (nth_error (_values self) i) as [value |] eqn:Hnth.
  - assert (Hv : supported value).
    { apply nth_error_In in Hnth.
      rewrite Forall_forall in Hall. apply Hall. exact Hnth. }
    rewrite (feed_accepts value self Hv).
    apply IH; simpl.
    + apply Forall_app. split; [exact Hall | constructor; [exact Hv | constructor]].
    + rewrite length_app. simpl. lia.
  - apply nth_error_None in Hnth. lia.
Qed.

(** X8: [feed_all] given the analyzer's own buffer does not end when that
    buffer is not empty: each turn of the loop appends a value to the list
    being iterated, so the position never reaches the length.  Whatever
    the number of turns allowed, the loop is still running.  On an empty
    buffer it returns at once and changes nothing. *)
Theorem feed_all_own_buffer_diverges (self : NumericDataAnalyzer) :
  Forall supported (_values self) ->
  (_values self <> [] -> forall fuel, feed_all_own_buffer fuel 0 self = None) /\
  (_values self = [] ->
   forall fuel, feed_all_own_buffer (S fuel) 0 self = Some (Return tt, self)).
Proof.
  intro Hall. split.
  - intros Hne fuel. apply own_buffer_running; [exact Hall |].
    destruct (_values self); [contradiction | simpl; lia].
  - intros Hnil fuel. simpl. rewrite Hnil. reflexivity.
Qed.

Lemma feed_all_own_buffer_diverges_witness :
  (_values {| _values := [PyInt 1]; stats := None |} <> [] ->
   forall fuel,
     feed_all_own_buffer fuel 0 {| _values := [PyInt 1]; stats := None |} = None) /\
  (_values {| _values := [PyInt 1]; stats := None |} = [] ->
   forall fuel,
     feed_all_own_buffer (S fuel) 0 {| _values := [PyInt 1]; stats := None |} =
       Some (Return tt, {| _values := [PyInt 1]; stats := None |})).
Proof.
  apply (feed_all_own_buffer_diverges {| _values := [PyInt 1]; stats := None |}).
  repeat constructor.
Defined.
